(** * yarpc: the server's command registry and request dispatch

    A shallow embedding of [yarpc/server.py] (class [Server]) together with
    the parts of the interface [yarpc/abc.py] (class [ABCServer]) it
    implements, and the properties of the dispatch engine that follow from
    the code.

    Python objects are represented as follows.
    - values of type [Any] are terms of [PyVal];
    - an exception object is its class and its constructor arguments;
    - [self._commands : Dict[int, _CommandType]] is a [gmap Z Handler];
    - the dictionary handed to the serializer is a [gmap string PyVal];
    - a method of [Server] is a computation in the monad [M]: it reads and
      writes the server object, may raise, and appends to a trace of the
      observable operations (log records, handler calls, awaits, sends). *)

From Stdlib Require Import ZArith String List.
From stdpp Require Import base option gmap strings list fin_maps.

Local Open Scope string_scope.
Local Open Scope Z_scope.
Local Open Scope list_scope.

(** ** Python values *)

Set Warnings "-register-all".

(** [VNone] is Python's [None]. [VNoValue] is the object [NoValue] imported
    from [yarpc/constants.py]; the code only ever tests identity with it
    ([data is not NoValue]), so it is a constructor of its own. *)
Inductive PyVal : Type :=
  | VNone
  | VNoValue
  | VBool (b : bool)
  | VInt (n : Z)
  | VStr (s : string)
  | VList (items : list PyVal)
  | VDict (items : list (string * PyVal)).

(** [x is None] *)
Definition is_None (x : PyVal) : bool :=
  match x with VNone => true | _ => false end.

(** [x is NoValue] *)
Definition is_NoValue (x : PyVal) : bool :=
  match x with VNoValue => true | _ => false end.

(** ** Exceptions *)

(** An exception class is given by its name and its chain of base classes up
    to [BaseException] (single inheritance, as in the built-in hierarchy). *)
Inductive ExcClass : Type :=
  | BaseException
  | Subclass (name : string) (base : ExcClass).

Definition Exception : ExcClass := Subclass "Exception" BaseException.
Definition TypeError : ExcClass := Subclass "TypeError" Exception.
Definition ValueError : ExcClass := Subclass "ValueError" Exception.
Definition RuntimeError : ExcClass := Subclass "RuntimeError" Exception.
Definition KeyboardInterrupt : ExcClass :=
  Subclass "KeyboardInterrupt" BaseException.
Definition SystemExit : ExcClass := Subclass "SystemExit" BaseException.

#[global] Instance ExcClass_eq_dec : EqDecision ExcClass.
Proof. solve_decision. Defined.

(** [cls.__name__] *)
Definition class_name (cls : ExcClass) : string :=
  match cls with
  | BaseException => "BaseException"
  | Subclass name _ => name
  end.

(** [issubclass(cls, target)] *)
Fixpoint issubclass (cls target : ExcClass) : bool :=
  if decide (cls = target) then true
  else match cls with
       | BaseException => false
       | Subclass _ base => issubclass base target
       end.

Record PyExc : Type := mkExc {
  exc_class : ExcClass;
  exc_args : list PyVal
}.

(** [isinstance(e, target)], the test of an [except target] clause *)
Definition isinstance (e : PyExc) (target : ExcClass) : bool :=
  issubclass (exc_class e) target.

(** ** What the code takes from outside this module *)

(** Modelled from the spec: the enumeration [StatusCode] of
    [yarpc/enums.py], which is not among the sources.  The specification
    lists its members as a closed set of four outcome codes. *)
Inductive StatusCode : Type :=
  | OK
  | UNKNOWN_COMMAND
  | BAD_PARAMS
  | INTERNAL_ERROR.

#[global] Instance StatusCode_eq_dec : EqDecision StatusCode.
Proof. solve_decision. Defined.

(** The two operations whose results the code uses without this repository
    fixing them: the [.value] of a status code (set in [yarpc/enums.py]) and
    the built-in [str] applied to an exception. *)
Class Builtins : Type := {
  StatusCode_value : StatusCode -> PyVal;
  str : PyExc -> string
}.

(** ** Requests and handlers *)

(** A [Request] as [Server._handle_request] sees it: the attributes
    [command_index] and [_data] it reads, and the address the reply goes
    to.  The request's back-reference to its server is the [self] of the
    monad below ([_make_request] builds requests with [Request.from_data(self,
    data)]). *)
Record Request : Type := mkRequest {
  command_index : Z;
  _data : gmap string PyVal;
  _address : option string
}.

(** What awaiting an awaitable does: it completes with a value or raises. *)
Inductive Awaitable : Type :=
  | Completes (result : PyVal)
  | Fails (e : PyExc).

(** What calling [fn(request, **request._data)] does: it returns an
    awaitable, or the call itself raises (for a coroutine function, exactly
    when the arguments do not bind to the parameters, with [TypeError]). *)
Inductive CallOutcome : Type :=
  | Returns (command : Awaitable)
  | CallRaises (e : PyExc).

(** [_CommandType]: a callable taking the request and its payload fields.
    A handler is represented by what the dispatch engine observes of it;
    whatever else its body does (replying through [request.reply], say) is
    the handler's own behaviour and is not recorded in the trace. *)
Abbreviation Handler := (Request -> CallOutcome).

(** ** The server object, and computations over it *)

Record Server : Type := mkServer {
  _node : string;
  _commands : gmap Z Handler
}.

Inductive LogLevel : Type := DEBUG | INFO | WARNING | ERROR.

Inductive Event : Type :=
  | EvLog (level : LogLevel) (msg : string) (args : list PyVal)
  | EvCall (index : Z)
  | EvAwait (index : Z)
  | EvSend (payload : gmap string PyVal).

Inductive Result (A : Type) : Type :=
  | Normal (a : A)
  | Raised (e : PyExc).
Arguments Normal {A} a.
Arguments Raised {A} e.

(** A computation starts from the server object and gives a result, the
    server object afterwards and the operations performed, oldest first. *)
Definition M (A : Type) : Type := Server -> Result A * Server * list Event.

Definition ret {A} (a : A) : M A := fun self => (Normal a, self, []).

Definition raise {A} (e : PyExc) : M A := fun self => (Raised e, self, []).

Definition bind {A B} (m : M A) (k : A -> M B) : M B :=
  fun self =>
    match m self with
    | (Normal a, self1, t1) =>
        match k a self1 with
        | (r, self2, t2) => (r, self2, t1 ++ t2)
        end
    | (Raised e, self1, t1) => (Raised e, self1, t1)
    end.

Notation "x <- m ;; k" := (bind m (fun x => k))
  (at level 100, m at next level, right associativity).
Notation "m ;; k" := (bind m (fun _ => k))
  (at level 100, right associativity).

(** [try: body  except cls as e: handler e] *)
Definition try_except {A} (body : M A) (cls : ExcClass) (handler : PyExc -> M A)
  : M A :=
  fun self =>
    match body self with
    | (Raised e, self1, t1) =>
        if isinstance e cls then
          match handler e self1 with
          | (r, self2, t2) => (r, self2, t1 ++ t2)
          end
        else (Raised e, self1, t1)
    | normal => normal
    end.

Definition get_self : M Server := fun self => (Normal self, self, []).

Definition set_commands (commands : gmap Z Handler) : M unit :=
  fun self => (Normal tt, mkServer (_node self) commands, []).

Definition emit (ev : Event) : M unit := fun self => (Normal tt, self, [ev]).

Definition log (level : LogLevel) (msg : string) (args : list PyVal) : M unit :=
  emit (EvLog level msg args).

(** Projections of a run *)
Definition result_of {A} (r : Result A * Server * list Event) : Result A :=
  r.1.1.
Definition server_of {A} (r : Result A * Server * list Event) : Server :=
  r.1.2.
Definition trace_of {A} (r : Result A * Server * list Event) : list Event :=
  r.2.

(** The responses handed to the transport, oldest first *)
Fixpoint sent (t : list Event) : list (gmap string PyVal) :=
  match t with
  | [] => []
  | EvSend payload :: t' => payload :: sent t'
  | _ :: t' => sent t'
  end.

(** The indices of the handlers whose results were awaited *)
Fixpoint awaited (t : list Event) : list Z :=
  match t with
  | [] => []
  | EvAwait index :: t' => index :: awaited t'
  | _ :: t' => awaited t'
  end.

(** ** [Server]: the command registry *)

(** [Server.node] *)
Definition node (self : Server) : string := _node self.

(** [Server.__init__], given the value that [uuid.uuid4().hex] takes in
    this call.  The call [super().__init__( *args, **kwargs)] sets up the
    connection, whose attributes the methods modelled here do not read. *)
Definition __init__ (uuid4_hex : string) (node : option string) : Server :=
  mkServer (match node with None => uuid4_hex | Some given => given end) ∅.

(** [Server.register_command] *)
Definition register_command (index : Z) (fn : Handler) : M Z :=
  self <- get_self;;
  if decide (is_Some (_commands self !! index)) then
    raise (mkExc ValueError
             [VStr "Command with index %d already registered"; VInt index])
  else
    set_commands (<[index := fn]> (_commands self));;
    ret index.

(** [Server.remove_command] *)
Definition remove_command (index : Z) : M Handler :=
  self <- get_self;;
  match _commands self !! index with
  | None =>
      raise (mkExc ValueError
               [VStr "Command with index %d is not registered"; VInt index])
  | Some fn =>
      set_commands (delete index (_commands self));;
      ret fn
  end.

(** [Server.command]: the decorator [inner], applied to [func] *)
Definition command (index : Z) (func : Handler) : M unit :=
  register_command index func;;
  ret tt.

(** ** [Server]: replying *)

(** Modelled from the spec: [Connection._dumps] and
    [Connection._send_response] of [yarpc/connection.py], which is not among
    the sources.  The specification gives them as the serialization and
    transport collaborators, [encode(mapping) -> bytes] and
    [send(encoded_bytes) -> awaitable<done>]; the byte encoding is left open,
    so the trace records the mapping that is encoded and sent. *)
Definition _send_response (payload : gmap string PyVal) : M unit :=
  emit (EvSend payload).

(** The dictionary built by [Server.reply] *)
Definition reply_payload `{Builtins}
    (self : Server) (address : string) (status : StatusCode) (data : PyVal)
  : gmap string PyVal :=
  let payload : gmap string PyVal :=
    <["a" := VStr address]>
      (<["n" := VStr (node self)]> (<["s" := StatusCode_value status]> ∅)) in
  if is_NoValue data then payload else <["d" := data]> payload.

(** [Server.reply] *)
Definition reply `{Builtins}
    (address : option string) (status : StatusCode) (data : PyVal) : M unit :=
  match address with
  | None => log DEBUG "no address, unable to respond" []
  | Some a =>
      self <- get_self;;
      _send_response (reply_payload self a status data)
  end.

(** Modelled from the spec: [Request._reply_with_status] of
    [yarpc/request.py], which is not among the sources.  The specification
    has every reply of the dispatch engine go through the one reply path,
    with the request's address, and "no payload" when no data is given (the
    parameter [data] then has its default, [NoValue]). *)
Definition _reply_with_status `{Builtins}
    (request : Request) (data : PyVal) (status : StatusCode) : M unit :=
  reply (_address request) status data.

(** Modelled from the spec: [Request.reply] of [yarpc/request.py], which is
    not among the sources: the reply of the success branch, "status OK,
    payload = result". *)
Definition Request_reply `{Builtins} (request : Request) (data : PyVal)
  : M unit :=
  _reply_with_status request data OK.

(** ** [Server]: dispatch *)

(** [fn(request, **request._data)] *)
Definition call (fn : Handler) (request : Request) : M Awaitable :=
  emit (EvCall (command_index request));;
  match fn request with
  | Returns command => ret command
  | CallRaises e => raise e
  end.

(** [await command] *)
Definition await (request : Request) (command : Awaitable) : M PyVal :=
  emit (EvAwait (command_index request));;
  match command with
  | Completes result => ret result
  | Fails e => raise e
  end.

(** [Server._handle_request].  A [try] statement whose [except] clause ends
    in [return] gives [None] for "the function has returned" and [Some v]
    for "go on with [v]". *)
Definition _handle_request `{Builtins} (request : Request) : M unit :=
  log INFO "received command %d" [VInt (command_index request)];;
  self <- get_self;;
  match _commands self !! command_index request with
  | None =>
      log WARNING "unknown command %d" [VInt (command_index request)];;
      _reply_with_status request VNoValue UNKNOWN_COMMAND
  | Some fn =>
      call_result <-
        try_except
          (command <- call fn request;; ret (Some command))
          TypeError
          (fun e =>
             log ERROR "bad arguments given to %d: %s"
               [VInt (command_index request); VStr (str e)];;
             _reply_with_status request (VStr (str e)) BAD_PARAMS;;
             ret None);;
      match call_result with
      | None => ret tt
      | Some command =>
          await_result <-
            try_except
              (command_result <- await request command;;
               ret (Some command_result))
              Exception
              (fun e =>
                 log ERROR "error calling command %d %s: %s"
                   [VInt (command_index request);
                    VStr (class_name (exc_class e));
                    VStr (str e)];;
                 _reply_with_status request (VStr (str e)) INTERNAL_ERROR;;
                 ret None);;
          match await_result with
          | None => ret tt
          | Some command_result =>
              if is_None command_result then ret tt
              else Request_reply request command_result
          end
      end
  end.

(** Modelled from the spec: the dispatch loop of [yarpc/connection.py],
    which is not among the sources; "the dispatch loop continues accepting
    subsequent requests".  Requests handled one after the other on the same
    server object are the composition of their dispatches, and an exception
    that leaves one dispatch ends the loop. *)
Fixpoint handle_all `{Builtins} (requests : list Request) : M unit :=
  match requests with
  | [] => ret tt
  | request :: rest => _handle_request request;; handle_all rest
  end.

(** The trace up to the lookup, up to the handler's call and up to the
    await of its result *)
Definition received (request : Request) : list Event :=
  [EvLog INFO "received command %d" [VInt (command_index request)]].

Definition called (request : Request) : list Event :=
  received request ++ [EvCall (command_index request)].

Definition was_awaited (request : Request) : list Event :=
  called request ++ [EvAwait (command_index request)].

(** ** Sample objects for the examples *)

(** Status code values and [str] for the examples: [str] of an exception
    built from one string is that string, and of one built from no argument
    the empty string, as in Python.  Exceptions built from anything else do
    not occur in the examples; the empty string stands in for their [str]
    here. *)
Definition sample_builtins : Builtins := {|
  StatusCode_value status :=
    VInt match status with
         | OK => 0
         | UNKNOWN_COMMAND => 1
         | BAD_PARAMS => 2
         | INTERNAL_ERROR => 3
         end;
  str e := match exc_args e with [VStr s] => s | _ => "" end
|}.

(** [async def ok(request): return {"ok": True}] *)
Definition h_ok : Handler :=
  fun _ => Returns (Completes (VDict [("ok", VBool true)])).

(** [async def silent(request): return None] *)
Definition h_silent : Handler := fun _ => Returns (Completes VNone).

(** [async def boom(request): raise RuntimeError("boom")] *)
Definition h_boom : Handler :=
  fun _ => Returns (Fails (mkExc RuntimeError [VStr "boom"])).

(** [async def stop(request): raise KeyboardInterrupt()] *)
Definition h_stop : Handler :=
  fun _ => Returns (Fails (mkExc KeyboardInterrupt [])).

(** [def eager(request): raise ValueError("eager")], not a coroutine
    function: its body runs when it is called. *)
Definition h_eager : Handler :=
  fun _ => CallRaises (mkExc ValueError [VStr "eager"]).

(** [async def need_x(request, x, **extra): return x] *)
Definition h_need_x : Handler :=
  fun request =>
    if decide (is_Some (_data request !! "request")) then
      CallRaises
        (mkExc TypeError
           [VStr "need_x() got multiple values for argument 'request'"])
    else
      match _data request !! "x" with
      | Some v => Returns (Completes v)
      | None =>
          CallRaises
            (mkExc TypeError
               [VStr "need_x() missing 1 required positional argument: 'x'"])
      end.

Definition sample_server : Server :=
  mkServer "node-1"
    (<[7 := h_ok]> (<[8 := h_silent]> (<[9 := h_boom]> (<[10 := h_stop]>
      (<[11 := h_eager]> (<[12 := h_need_x]> ∅)))))).

Definition request_to (index : Z) (address : option string) : Request :=
  mkRequest index ∅ address.

(** * Properties *)

(** ** Sequencing *)

(** A computation that returns normally without touching the server object
    is transparent to what follows it. *)
Lemma bind_normal {A B} (m : M A) (k : A -> M B) (self : Server) (a : A)
    (t : list Event) :
  m self = (Normal a, self, t) ->
  bind m k self = (result_of (k a self), server_of (k a self),
                   t ++ trace_of (k a self)).
Proof.
  intros Hm. unfold bind, result_of, server_of, trace_of. rewrite Hm.
  destruct (k a self) as [[r self2] t2]. reflexivity.
Qed.

Section reply_properties.
Context `{Builtins}.

Lemma reply_payload_s self a status data :
  reply_payload self a status data !! "s" = Some (StatusCode_value status).
Proof. unfold reply_payload. destruct (is_NoValue data); by simplify_map_eq. Qed.

Lemma reply_payload_n self a status data :
  reply_payload self a status data !! "n" = Some (VStr (node self)).
Proof. unfold reply_payload. destruct (is_NoValue data); by simplify_map_eq. Qed.

Lemma reply_payload_a self a status data :
  reply_payload self a status data !! "a" = Some (VStr a).
Proof. unfold reply_payload. destruct (is_NoValue data); by simplify_map_eq. Qed.

Lemma reply_payload_d self a status data :
  reply_payload self a status data !! "d"
  = if is_NoValue data then None else Some data.
Proof. unfold reply_payload. destruct (is_NoValue data); by simplify_map_eq. Qed.

Lemma is_NoValue_true data : is_NoValue data = true <-> data = VNoValue.
Proof. destruct data; simpl; split; congruence. Qed.

Lemma reply_run (self : Server) address status data :
  reply address status data self
  = (Normal tt, self,
     match address with
     | None => [EvLog DEBUG "no address, unable to respond" []]
     | Some a => [EvSend (reply_payload self a status data)]
     end).
Proof. destruct address; reflexivity. Qed.

Lemma reply_sent (self : Server) address status data :
  sent (trace_of (reply address status data self))
  = match address with
    | None => []
    | Some a => [reply_payload self a status data]
    end.
Proof. rewrite reply_run. destruct address; reflexivity. Qed.

End reply_properties.

(** ** One dispatch, branch by branch *)

Section dispatch_properties.
Context `{Builtins}.

(** The run of [_handle_request], one line per path through its body. *)
Lemma _handle_request_run (self : Server) (request : Request) :
  _handle_request request self
  = match _commands self !! command_index request with
    | None =>
        (Normal tt, self,
         received request
         ++ [EvLog WARNING "unknown command %d"
               [VInt (command_index request)]]
         ++ trace_of (reply (_address request) UNKNOWN_COMMAND VNoValue self))
    | Some fn =>
        match fn request with
        | CallRaises e =>
            if isinstance e TypeError then
              (Normal tt, self,
               called request
               ++ [EvLog ERROR "bad arguments given to %d: %s"
                     [VInt (command_index request); VStr (str e)]]
               ++ trace_of
                    (reply (_address request) BAD_PARAMS (VStr (str e)) self))
            else (Raised e, self, called request)
        | Returns (Fails e) =>
            if isinstance e Exception then
              (Normal tt, self,
               was_awaited request
               ++ [EvLog ERROR "error calling command %d %s: %s"
                     [VInt (command_index request);
                      VStr (class_name (exc_class e));
                      VStr (str e)]]
               ++ trace_of
                    (reply (_address request) INTERNAL_ERROR
                       (VStr (str e)) self))
            else (Raised e, self, was_awaited request)
        | Returns (Completes command_result) =>
            if is_None command_result then
              (Normal tt, self, was_awaited request)
            else
              (Normal tt, self,
               was_awaited request
               ++ trace_of (reply (_address request) OK command_result self))
        end
    end.
Proof.
  unfold _handle_request, Request_reply, _reply_with_status, call, await,
    try_except, bind, log, emit, get_self, ret, raise; simpl.
  destruct (_commands self !! command_index request) as [fn|]; simpl.
  - destruct (fn request) as [[command_result|e]|e]; simpl.
    + destruct (is_None command_result); simpl; [reflexivity|].
      rewrite reply_run. destruct (_address request); reflexivity.
    + destruct (isinstance e Exception); simpl; [|reflexivity].
      rewrite reply_run. destruct (_address request); reflexivity.
    + destruct (isinstance e TypeError); simpl; [|reflexivity].
      rewrite reply_run. destruct (_address request); reflexivity.
  - rewrite reply_run. destruct (_address request); reflexivity.
Qed.

(** Dispatch never writes the server object. *)
Lemma _handle_request_server (self : Server) (request : Request) :
  server_of (_handle_request request self) = self.
Proof.
  rewrite _handle_request_run.
  destruct (_commands self !! command_index request) as [fn|]; [|reflexivity].
  destruct (fn request) as [[v|e]|e].
  - destruct (is_None v); reflexivity.
  - destruct (isinstance e Exception); reflexivity.
  - destruct (isinstance e TypeError); reflexivity.
Qed.

(** After a dispatch that returns normally, the remaining requests are
    handled from the same server object. *)
Lemma handle_all_cons (self : Server) (request : Request)
    (rest : list Request) :
  result_of (_handle_request request self) = Normal tt ->
  handle_all (request :: rest) self
  = (result_of (handle_all rest self), server_of (handle_all rest self),
     trace_of (_handle_request request self)
     ++ trace_of (handle_all rest self)).
Proof.
  intros Hres. simpl.
  apply (bind_normal _ (fun _ => handle_all rest) self tt).
  pose proof (_handle_request_server self request) as Hself.
  destruct (_handle_request request self) as [[r s] t].
  unfold result_of, server_of, trace_of in *; simpl in *. congruence.
Qed.

End dispatch_properties.

(** ** The command registry *)

(** C9: [register_command(index, fn)] on an index that is already present
    raises [ValueError] (the duplicate-index error), writes nothing and
    leaves the server object as it was, so the index still maps to the
    handler registered first; on a fresh index it stores [fn] under the
    index, leaves the node alone and returns the index. *)
Theorem register_command_duplicate_or_fresh
    (self : Server) (index : Z) (fn : Handler) :
  match _commands self !! index with
  | Some first =>
      register_command index fn self
      = (Raised
           (mkExc ValueError
              [VStr "Command with index %d already registered"; VInt index]),
         self, [])
      /\ _commands (server_of (register_command index fn self)) !! index
         = Some first
  | None =>
      register_command index fn self
      = (Normal index,
         mkServer (_node self) (<[index := fn]> (_commands self)), [])
      /\ _commands (server_of (register_command index fn self)) !! index
         = Some fn
  end.
Proof.
  unfold register_command, bind, get_self, set_commands, raise, ret.
  destruct (_commands self !! index) as [first|] eqn:Hlookup; simpl.
  - split; [reflexivity|exact Hlookup].
  - split; [reflexivity|]. unfold server_of; simpl. apply lookup_insert_eq.
Qed.

(** Registering leaves every other index as it was. *)
Lemma register_command_other (self : Server) (index other : Z) (fn : Handler) :
  index <> other ->
  _commands (server_of (register_command index fn self)) !! other
  = _commands self !! other.
Proof.
  intros Hne.
  unfold register_command, bind, get_self, set_commands, raise, ret, server_of.
  destruct (decide (is_Some (_commands self !! index))); simpl; [reflexivity|].
  by apply lookup_insert_ne.
Qed.

(** X1: [remove_command] on an index that is not registered raises
    [ValueError] with the arguments ["Command with index %d is not
    registered"] and the index, writes nothing and leaves the server object
    as it was. *)
Lemma remove_command_unknown (self : Server) (index : Z) :
  _commands self !! index = None ->
  remove_command index self
  = (Raised
       (mkExc ValueError
          [VStr "Command with index %d is not registered"; VInt index]),
     self, []).
Proof.
  intros Hlookup. unfold remove_command, bind, get_self, raise; simpl.
  rewrite Hlookup. reflexivity.
Qed.

(** C10: for an index [i] that is not registered, [register_command(i, f)]
    followed by [remove_command(i)] succeeds, returns [f] itself and leaves
    the server object, hence its command registry, as it was before the two
    calls. *)
Theorem register_then_remove (self : Server) (i : Z) (f : Handler) :
  _commands self !! i = None ->
  (register_command i f;; remove_command i) self = (Normal f, self, []).
Proof.
  intros Hfresh.
  unfold register_command, remove_command, bind, get_self, set_commands,
    raise, ret; simpl.
  rewrite decide_False by (rewrite Hfresh; intros [? ?]; discriminate).
  simpl. rewrite lookup_insert_eq. simpl.
  rewrite delete_insert_id by exact Hfresh.
  destruct self; reflexivity.
Qed.

(** ** Replying *)

Section reply_claims.
Context `{Builtins}.

(** C8: [Server.reply] with no address sends nothing, whatever the status
    and the data are, and returns; with an address it sends one mapping
    that holds the value of the status code under ["s"], the node
    identifier under ["n"] and the address under ["a"], and that has a
    ["d"] field exactly when the data is not the [NoValue] object, in
    which case the field is the data.  It never writes the server
    object. *)
Theorem reply_no_address_or_payload
    (self : Server) (status : StatusCode) (data : PyVal) :
  (result_of (reply None status data self) = Normal tt
   /\ server_of (reply None status data self) = self
   /\ sent (trace_of (reply None status data self)) = [])
  /\ forall a : string,
      result_of (reply (Some a) status data self) = Normal tt
      /\ server_of (reply (Some a) status data self) = self
      /\ exists payload : gmap string PyVal,
          sent (trace_of (reply (Some a) status data self)) = [payload]
          /\ payload !! "s" = Some (StatusCode_value status)
          /\ payload !! "n" = Some (VStr (node self))
          /\ payload !! "a" = Some (VStr a)
          /\ (is_Some (payload !! "d") <-> data <> VNoValue)
          /\ payload !! "d" = if is_NoValue data then None else Some data.
Proof.
  split; [repeat split|].
  intros a. rewrite reply_run. repeat split.
  exists (reply_payload self a status data).
  rewrite reply_payload_s, reply_payload_n, reply_payload_a,
    reply_payload_d.
  repeat split.
  - intros [v Hv] ->. discriminate.
  - intros Hdata. destruct (is_NoValue data) eqn:Hnv; [|eauto].
    apply is_NoValue_true in Hnv. contradiction.
Qed.

End reply_claims.

(** ** Dispatch *)

Section dispatch_claims.
Context `{Builtins}.

(** C3 (as amended): for a request whose command index has no registered
    handler, dispatch calls and awaits no handler, leaves the server
    object unchanged and returns; when the request has an address it
    sends exactly one response, with status [UNKNOWN_COMMAND], the node,
    the address and no data field; when the address is absent it sends
    nothing. *)
Theorem unknown_command_reply (self : Server) (request : Request) :
  _commands self !! command_index request = None ->
  result_of (_handle_request request self) = Normal tt
  /\ server_of (_handle_request request self) = self
  /\ trace_of (_handle_request request self)
     = received request
       ++ [EvLog WARNING "unknown command %d" [VInt (command_index request)]]
       ++ trace_of (reply (_address request) UNKNOWN_COMMAND VNoValue self)
  /\ sent (trace_of (_handle_request request self))
     = match _address request with
       | Some a => [reply_payload self a UNKNOWN_COMMAND VNoValue]
       | None => []
       end
  /\ forall a : string,
      reply_payload self a UNKNOWN_COMMAND VNoValue !! "s"
      = Some (StatusCode_value UNKNOWN_COMMAND)
      /\ reply_payload self a UNKNOWN_COMMAND VNoValue !! "n"
         = Some (VStr (node self))
      /\ reply_payload self a UNKNOWN_COMMAND VNoValue !! "a"
         = Some (VStr a)
      /\ reply_payload self a UNKNOWN_COMMAND VNoValue !! "d" = None.
Proof.
  intros Hlookup. rewrite _handle_request_run, Hlookup.
  split; [reflexivity|]. split; [reflexivity|]. split; [reflexivity|]. split.
  - unfold trace_of at 1; simpl. rewrite reply_run.
    destruct (_address request); reflexivity.
  - intros a.
    rewrite reply_payload_s, reply_payload_n, reply_payload_a,
      reply_payload_d.
    repeat split.
Qed.

(** C4: when the call [fn(request, **request._data)] of the registered
    handler raises [TypeError] [e] (the payload fields do not bind to the
    handler's parameters), dispatch logs the failure and replies through
    [Server.reply] to the request's address with status [BAD_PARAMS] and
    data [str(e)]; nothing is awaited, the server object is unchanged and
    dispatch returns.  With an address the response sent carries
    [BAD_PARAMS] and the message as its data field. *)
Theorem bad_params_reply
    (self : Server) (request : Request) (fn : Handler) (e : PyExc) :
  _commands self !! command_index request = Some fn ->
  fn request = CallRaises e ->
  isinstance e TypeError = true ->
  result_of (_handle_request request self) = Normal tt
  /\ server_of (_handle_request request self) = self
  /\ trace_of (_handle_request request self)
     = called request
       ++ [EvLog ERROR "bad arguments given to %d: %s"
             [VInt (command_index request); VStr (str e)]]
       ++ trace_of (reply (_address request) BAD_PARAMS (VStr (str e)) self)
  /\ awaited (trace_of (_handle_request request self)) = []
  /\ sent (trace_of (_handle_request request self))
     = match _address request with
       | Some a => [reply_payload self a BAD_PARAMS (VStr (str e))]
       | None => []
       end
  /\ forall a : string,
      reply_payload self a BAD_PARAMS (VStr (str e)) !! "s"
      = Some (StatusCode_value BAD_PARAMS)
      /\ reply_payload self a BAD_PARAMS (VStr (str e)) !! "a"
         = Some (VStr a)
      /\ reply_payload self a BAD_PARAMS (VStr (str e)) !! "d"
         = Some (VStr (str e)).
Proof.
  intros Hlookup Hcall Htype.
  rewrite _handle_request_run, Hlookup, Hcall, Htype.
  split; [reflexivity|]. split; [reflexivity|]. split; [reflexivity|].
  split; [|split].
  - unfold trace_of at 1; simpl. rewrite reply_run.
    destruct (_address request); reflexivity.
  - unfold trace_of at 1; simpl. rewrite reply_run.
    destruct (_address request); reflexivity.
  - intros a.
    rewrite reply_payload_s, reply_payload_a, reply_payload_d.
    repeat split.
Qed.

(** C5 (as amended): when awaiting the handler's result raises an error
    [e] derived from [Exception], dispatch leaves the server object (node
    and command registry) unchanged and returns, so that the requests
    after it are handled from the same state; when the request has an
    address it sends exactly one response, with status [INTERNAL_ERROR]
    and [str(e)] as its data field; when the address is absent it sends
    nothing. *)
Theorem internal_error_reply
    (self : Server) (request : Request) (fn : Handler) (e : PyExc) :
  _commands self !! command_index request = Some fn ->
  fn request = Returns (Fails e) ->
  isinstance e Exception = true ->
  result_of (_handle_request request self) = Normal tt
  /\ server_of (_handle_request request self) = self
  /\ sent (trace_of (_handle_request request self))
     = match _address request with
       | Some a => [reply_payload self a INTERNAL_ERROR (VStr (str e))]
       | None => []
       end
  /\ (forall a : string,
        reply_payload self a INTERNAL_ERROR (VStr (str e)) !! "s"
        = Some (StatusCode_value INTERNAL_ERROR)
        /\ reply_payload self a INTERNAL_ERROR (VStr (str e)) !! "a"
           = Some (VStr a)
        /\ reply_payload self a INTERNAL_ERROR (VStr (str e)) !! "d"
           = Some (VStr (str e)))
  /\ forall rest : list Request,
      handle_all (request :: rest) self
      = (result_of (handle_all rest self), server_of (handle_all rest self),
         trace_of (_handle_request request self)
         ++ trace_of (handle_all rest self)).
Proof.
  intros Hlookup Hcall Herr.
  assert (Hres : result_of (_handle_request request self) = Normal tt)
    by (rewrite _handle_request_run, Hlookup, Hcall, Herr; reflexivity).
  split; [exact Hres|]. split; [apply _handle_request_server|].
  split; [|split].
  - rewrite _handle_request_run, Hlookup, Hcall, Herr.
    unfold trace_of at 1; simpl. rewrite reply_run.
    destruct (_address request); reflexivity.
  - intros a.
    rewrite reply_payload_s, reply_payload_a, reply_payload_d.
    repeat split.
  - intros rest. apply handle_all_cons, Hres.
Qed.

(** C6: when the handler's awaited result is [None], dispatch returns
    right after the await: it sends no response, whether or not the
    request has an address, raises nothing and leaves the server object
    unchanged. *)
Theorem none_result_sends_nothing
    (self : Server) (request : Request) (fn : Handler) :
  _commands self !! command_index request = Some fn ->
  fn request = Returns (Completes VNone) ->
  _handle_request request self = (Normal tt, self, was_awaited request)
  /\ sent (trace_of (_handle_request request self)) = [].
Proof.
  intros Hlookup Hcall.
  rewrite _handle_request_run, Hlookup, Hcall. split; reflexivity.
Qed.

(** C7 (as amended): when the handler's awaited result [v] is not [None]
    and nothing was raised, dispatch leaves the server object unchanged
    and returns; when the request has an address it sends exactly one
    response, with status [OK] and [v] as its data (the data field is
    left out when [v] is the [NoValue] object); when the address is
    absent it sends nothing. *)
Theorem success_reply
    (self : Server) (request : Request) (fn : Handler) (v : PyVal) :
  _commands self !! command_index request = Some fn ->
  fn request = Returns (Completes v) ->
  v <> VNone ->
  result_of (_handle_request request self) = Normal tt
  /\ server_of (_handle_request request self) = self
  /\ sent (trace_of (_handle_request request self))
     = match _address request with
       | Some a => [reply_payload self a OK v]
       | None => []
       end
  /\ forall a : string,
      reply_payload self a OK v !! "s" = Some (StatusCode_value OK)
      /\ reply_payload self a OK v !! "n" = Some (VStr (node self))
      /\ reply_payload self a OK v !! "a" = Some (VStr a)
      /\ reply_payload self a OK v !! "d"
         = if is_NoValue v then None else Some v.
Proof.
  intros Hlookup Hcall Hv.
  assert (Hnone : is_None v = false) by (destruct v; simpl; congruence).
  rewrite _handle_request_run, Hlookup, Hcall, Hnone.
  split; [reflexivity|]. split; [reflexivity|]. split.
  - unfold trace_of at 1; simpl. rewrite reply_run.
    destruct (_address request); reflexivity.
  - intros a.
    rewrite reply_payload_s, reply_payload_n, reply_payload_a,
      reply_payload_d.
    repeat split.
Qed.

End dispatch_claims.

(** ** What every dispatch does *)

Section dispatch_invariants.
Context `{Builtins}.

(** X11: an exception that neither [except] clause matches (one that is
    not a [TypeError], raised by the call of the handler, or one that is not
    an [Exception], raised while its result is awaited) leaves
    [_handle_request] and reaches the caller as it is; no response is sent
    for the request, whatever its address, and the server object is
    unchanged. *)
Lemma uncaught_failure_propagates
    (self : Server) (request : Request) (fn : Handler) (e : PyExc) :
  _commands self !! command_index request = Some fn ->
  (fn request = CallRaises e /\ isinstance e TypeError = false)
  \/ (fn request = Returns (Fails e) /\ isinstance e Exception = false) ->
  result_of (_handle_request request self) = Raised e
  /\ server_of (_handle_request request self) = self
  /\ sent (trace_of (_handle_request request self)) = [].
Proof.
  intros Hlookup [[Hcall Hcls]|[Hcall Hcls]];
    rewrite _handle_request_run, Hlookup, Hcall, Hcls; repeat split.
Qed.

(** C1 (as amended): a request without an address never yields a
    response.  A request with an address yields at most one response,
    addressed to it, and yields none exactly when the handler's awaited
    result is [None] or an exception leaves [_handle_request]; in every
    other case it yields exactly one. *)
Theorem dispatch_response_count (self : Server) (request : Request) :
  (_address request = None ->
   sent (trace_of (_handle_request request self)) = [])
  /\ forall a : string,
      _address request = Some a ->
      (length (sent (trace_of (_handle_request request self))) <= 1)%nat
      /\ (sent (trace_of (_handle_request request self)) = []
          <-> (exists fn : Handler,
                  _commands self !! command_index request = Some fn
                  /\ fn request = Returns (Completes VNone))
              \/ result_of (_handle_request request self) <> Normal tt)
      /\ forall payload : gmap string PyVal,
          sent (trace_of (_handle_request request self)) = [payload] ->
          payload !! "a" = Some (VStr a)
          /\ payload !! "n" = Some (VStr (node self)).
Proof.
  rewrite _handle_request_run. split.
  - intros Haddr.
    destruct (_commands self !! command_index request) as [fn|];
      [destruct (fn request) as [[v|e]|e];
       [destruct (is_None v)|destruct (isinstance e Exception)
       |destruct (isinstance e TypeError)]|];
      unfold trace_of; simpl; rewrite ?reply_run, ?Haddr; reflexivity.
  - intros a Haddr.
    destruct (_commands self !! command_index request) as [fn|] eqn:Hlookup.
    + destruct (fn request) as [[v|e]|e] eqn:Hcall.
      * destruct (is_None v) eqn:Hnone.
        -- assert (v = VNone) as -> by (destruct v; simpl in *; congruence).
           unfold trace_of, result_of; simpl.
           split; [lia|]. split; [|intros ? [=]].
           split; [|reflexivity]. intros _. left. eauto.
        -- unfold trace_of at 1 2 3, result_of; simpl.
           rewrite reply_run, Haddr; simpl.
           split; [lia|]. split.
           ++ split; [intros [=]|].
              intros [[fn' [[= <-] Hcall']]|Hres]; [|congruence].
              rewrite Hcall in Hcall'. injection Hcall' as ->. discriminate.
           ++ intros payload [= <-].
              by rewrite reply_payload_a, reply_payload_n.
      * destruct (isinstance e Exception).
        -- unfold trace_of at 1 2 3, result_of; simpl.
           rewrite reply_run, Haddr; simpl.
           split; [lia|]. split.
           ++ split; [intros [=]|].
              intros [[fn' [[= <-] Hcall']]|Hres]; congruence.
           ++ intros payload [= <-].
              by rewrite reply_payload_a, reply_payload_n.
        -- unfold trace_of, result_of; simpl.
           split; [lia|]. split; [|intros ? [=]].
           split; [|reflexivity]. intros _. right. discriminate.
      * destruct (isinstance e TypeError).
        -- unfold trace_of at 1 2 3, result_of; simpl.
           rewrite reply_run, Haddr; simpl.
           split; [lia|]. split.
           ++ split; [intros [=]|].
              intros [[fn' [[= <-] Hcall']]|Hres]; congruence.
           ++ intros payload [= <-].
              by rewrite reply_payload_a, reply_payload_n.
        -- unfold trace_of, result_of; simpl.
           split; [lia|]. split; [|intros ? [=]].
           split; [|reflexivity]. intros _. right. discriminate.
    + unfold trace_of at 1 2 3, result_of; simpl.
      rewrite reply_run, Haddr; simpl.
      split; [lia|]. split.
      * split; [intros [=]|].
        intros [[fn' [[=] _]]|Hres]; congruence.
      * intros payload [= <-].
        by rewrite reply_payload_a, reply_payload_n.
Qed.

(** C2 (as amended): a [TypeError] raised when the handler is called, and
    any error derived from [Exception] raised while its result is awaited,
    is contained in the dispatch engine, as is the lack of a handler:
    [_handle_request] replies ([BAD_PARAMS] with the message of the
    [TypeError], [INTERNAL_ERROR] with the message of the error raised while
    awaiting, [UNKNOWN_COMMAND] without data for the missing handler; the
    response goes out when the request has an address), returns normally and
    leaves the server object unchanged, so the requests after it are handled
    exactly as they would be without the failing one. *)
Theorem caught_failures_are_contained (self : Server) (request : Request) :
  match _commands self !! command_index request with
  | Some fn =>
      match fn request with
      | CallRaises e => isinstance e TypeError = true
      | Returns (Fails e) => isinstance e Exception = true
      | Returns (Completes _) => True
      end
  | None => True
  end ->
  result_of (_handle_request request self) = Normal tt
  /\ server_of (_handle_request request self) = self
  /\ sent (trace_of (_handle_request request self))
     = match _commands self !! command_index request, _address request with
       | _, None => []
       | None, Some a => [reply_payload self a UNKNOWN_COMMAND VNoValue]
       | Some fn, Some a =>
           match fn request with
           | CallRaises e => [reply_payload self a BAD_PARAMS (VStr (str e))]
           | Returns (Fails e) =>
               [reply_payload self a INTERNAL_ERROR (VStr (str e))]
           | Returns (Completes command_result) =>
               if is_None command_result then []
               else [reply_payload self a OK command_result]
           end
       end
  /\ (forall (a : string) (status : StatusCode) (data : PyVal),
        reply_payload self a status data !! "s"
        = Some (StatusCode_value status)
        /\ reply_payload self a status data !! "n" = Some (VStr (node self))
        /\ reply_payload self a status data !! "a" = Some (VStr a)
        /\ reply_payload self a status data !! "d"
           = if is_NoValue data then None else Some data)
  /\ forall rest : list Request,
      handle_all (request :: rest) self
      = (result_of (handle_all rest self), server_of (handle_all rest self),
         trace_of (_handle_request request self)
         ++ trace_of (handle_all rest self)).
Proof.
  intros Hcaught.
  assert (Hres : result_of (_handle_request request self) = Normal tt).
  { rewrite _handle_request_run.
    destruct (_commands self !! command_index request) as [fn|];
      [|reflexivity].
    destruct (fn request) as [[v|e]|e].
    - destruct (is_None v); reflexivity.
    - rewrite Hcaught. reflexivity.
    - rewrite Hcaught. reflexivity. }
  split; [exact Hres|]. split; [apply _handle_request_server|].
  split; [|split].
  - rewrite _handle_request_run.
    destruct (_commands self !! command_index request) as [fn|].
    + destruct (fn request) as [[v|e]|e].
      * destruct (is_None v); unfold trace_of at 1; simpl;
          rewrite ?reply_run; destruct (_address request); reflexivity.
      * rewrite Hcaught. unfold trace_of at 1; simpl.
        rewrite reply_run. destruct (_address request); reflexivity.
      * rewrite Hcaught. unfold trace_of at 1; simpl.
        rewrite reply_run. destruct (_address request); reflexivity.
    + unfold trace_of at 1; simpl.
      rewrite reply_run. destruct (_address request); reflexivity.
  - intros a status data.
    rewrite reply_payload_s, reply_payload_n, reply_payload_a,
      reply_payload_d.
    repeat split.
  - intros rest. apply handle_all_cons, Hres.
Qed.

End dispatch_invariants.

(** * The properties at concrete requests *)

Section examples.
#[local] Existing Instance sample_builtins.

(** C9 at the sample server: index [7] is taken, so registering [h_boom]
    there raises and [7] keeps [h_ok]; index [99] is free. *)
Lemma register_command_duplicate_or_fresh_witness :
  result_of (register_command 7 h_boom sample_server)
  = Raised
      (mkExc ValueError
         [VStr "Command with index %d already registered"; VInt 7])
  /\ server_of (register_command 7 h_boom sample_server) = sample_server
  /\ result_of (register_command 99 h_boom sample_server) = Normal 99.
Proof.
  pose proof (register_command_duplicate_or_fresh sample_server 7 h_boom)
    as Htaken.
  pose proof (register_command_duplicate_or_fresh sample_server 99 h_boom)
    as Hfree.
  change (_commands sample_server !! 7) with (Some h_ok) in Htaken.
  change (_commands sample_server !! 99) with (@None Handler) in Hfree.
  destruct Htaken as [-> _]. destruct Hfree as [-> _].
  repeat split.
Defined.

(** C10 at the sample server and the free index [99]. *)
Lemma register_then_remove_witness :
  _commands sample_server !! 99 = None
  /\ (register_command 99 h_boom;; remove_command 99) sample_server
     = (Normal h_boom, sample_server, []).
Proof.
  split; [reflexivity|]. apply register_then_remove. reflexivity.
Defined.

(** C8: a reply with an address and data, and one without an address. *)
Lemma reply_no_address_or_payload_witness :
  sent (trace_of (reply None OK (VInt 5) sample_server)) = []
  /\ exists payload : gmap string PyVal,
      sent (trace_of (reply (Some "A") OK (VInt 5) sample_server))
      = [payload]
      /\ payload !! "s" = Some (VInt 0)
      /\ payload !! "n" = Some (VStr "node-1")
      /\ payload !! "a" = Some (VStr "A")
      /\ payload !! "d" = Some (VInt 5).
Proof.
  destruct (reply_no_address_or_payload sample_server OK (VInt 5))
    as [(_ & _ & Hnone) Hsome].
  split; [exact Hnone|].
  destruct (Hsome "A") as (_ & _ & payload & Hsent & Hs & Hn & Ha & _ & Hd).
  exists payload. repeat split; assumption.
Defined.

(** C3 as stated fails: index [99] is not registered and the request has
    no address; [Server.reply] returns at [if address is None] and no
    response is sent, where the claim has exactly one. *)
Lemma unknown_command_without_address :
  _commands sample_server !! 99 = None
  /\ sent (trace_of (_handle_request (mkRequest 99 ∅ None) sample_server))
     = [].
Proof. split; reflexivity. Qed.

(** C3 (as amended) at index [99] with the address ["A"]. *)
Lemma unknown_command_reply_witness :
  _commands sample_server !! 99 = None
  /\ sent (trace_of
             (_handle_request (mkRequest 99 ∅ (Some "A")) sample_server))
     = [reply_payload sample_server "A" UNKNOWN_COMMAND VNoValue]
  /\ reply_payload sample_server "A" UNKNOWN_COMMAND VNoValue !! "d" = None.
Proof.
  split; [reflexivity|].
  destruct (unknown_command_reply sample_server
              (mkRequest 99 ∅ (Some "A")) eq_refl)
    as (_ & _ & _ & Hsent & Hpayload).
  split; [exact Hsent|]. apply (Hpayload "A").
Defined.

(** C4 at the handler [need_x], called without its field [x]. *)
Lemma bad_params_reply_witness :
  (_commands sample_server !! 12 = Some h_need_x
   /\ h_need_x (mkRequest 12 ∅ (Some "A"))
      = CallRaises
          (mkExc TypeError
             [VStr "need_x() missing 1 required positional argument: 'x'"]))
  /\ awaited (trace_of
                (_handle_request (mkRequest 12 ∅ (Some "A")) sample_server))
     = []
  /\ sent (trace_of
             (_handle_request (mkRequest 12 ∅ (Some "A")) sample_server))
     = [reply_payload sample_server "A" BAD_PARAMS
          (VStr "need_x() missing 1 required positional argument: 'x'")].
Proof.
  assert (Hcall : h_need_x (mkRequest 12 ∅ (Some "A"))
                  = CallRaises
                      (mkExc TypeError
                         [VStr "need_x() missing 1 required positional argument: 'x'"]))
    by reflexivity.
  split; [split; [reflexivity|exact Hcall]|].
  destruct (bad_params_reply sample_server (mkRequest 12 ∅ (Some "A"))
              h_need_x _ eq_refl Hcall eq_refl)
    as (_ & _ & _ & Hawaited & Hsent & _).
  split; [exact Hawaited|exact Hsent].
Defined.

(** C5 as stated fails: the handler at index [9] raises [RuntimeError]
    while awaited and the request has no address; no response is sent,
    where the claim has exactly one. *)
Lemma internal_error_without_address :
  (_commands sample_server !! 9 = Some h_boom
   /\ h_boom (mkRequest 9 ∅ None)
      = Returns (Fails (mkExc RuntimeError [VStr "boom"])))
  /\ sent (trace_of (_handle_request (mkRequest 9 ∅ None) sample_server))
     = [].
Proof. repeat split. Qed.

(** C5 (as amended) at the same handler, with the address ["A"], followed
    by a request to index [7]. *)
Lemma internal_error_reply_witness :
  (_commands sample_server !! 9 = Some h_boom
   /\ isinstance (mkExc RuntimeError [VStr "boom"]) Exception = true)
  /\ sent (trace_of
             (_handle_request (mkRequest 9 ∅ (Some "A")) sample_server))
     = [reply_payload sample_server "A" INTERNAL_ERROR (VStr "boom")]
  /\ handle_all [mkRequest 9 ∅ (Some "A"); mkRequest 7 ∅ (Some "B")]
       sample_server
     = (Normal tt, sample_server,
        trace_of (_handle_request (mkRequest 9 ∅ (Some "A")) sample_server)
        ++ trace_of
             (handle_all [mkRequest 7 ∅ (Some "B")] sample_server)).
Proof.
  split; [split; reflexivity|].
  destruct (internal_error_reply sample_server (mkRequest 9 ∅ (Some "A"))
              h_boom (mkExc RuntimeError [VStr "boom"])
              eq_refl eq_refl eq_refl)
    as (_ & _ & Hsent & _ & Hrest).
  split; [exact Hsent|]. apply (Hrest [mkRequest 7 ∅ (Some "B")]).
Defined.

(** C6 at the handler that returns [None], with an address. *)
Lemma none_result_sends_nothing_witness :
  (_commands sample_server !! 8 = Some h_silent
   /\ h_silent (mkRequest 8 ∅ (Some "A")) = Returns (Completes VNone))
  /\ result_of (_handle_request (mkRequest 8 ∅ (Some "A")) sample_server)
     = Normal tt
  /\ sent (trace_of
             (_handle_request (mkRequest 8 ∅ (Some "A")) sample_server))
     = [].
Proof.
  split; [split; reflexivity|].
  destruct (none_result_sends_nothing sample_server
              (mkRequest 8 ∅ (Some "A")) h_silent eq_refl eq_refl)
    as [Hrun Hsent].
  split; [rewrite Hrun; reflexivity|exact Hsent].
Defined.

(** C7 as stated fails: the handler at index [7] returns [{"ok": True}]
    and the request has no address; no response is sent, where the claim
    has exactly one. *)
Lemma success_without_address :
  (_commands sample_server !! 7 = Some h_ok
   /\ h_ok (mkRequest 7 ∅ None)
      = Returns (Completes (VDict [("ok", VBool true)])))
  /\ sent (trace_of (_handle_request (mkRequest 7 ∅ None) sample_server))
     = [].
Proof. repeat split. Qed.

(** C7 (as amended), the end-to-end case: the handler registered at [7]
    returns [{"ok": True}]; the request [{command_index: 7, data: {}}]
    with address ["A"] gets the one response [{status: OK, node: <server
    node>, address: "A", data: {"ok": True}}]. *)
Lemma success_reply_witness :
  (_commands sample_server !! 7 = Some h_ok
   /\ VDict [("ok", VBool true)] <> VNone)
  /\ sent (trace_of
             (_handle_request (mkRequest 7 ∅ (Some "A")) sample_server))
     = [reply_payload sample_server "A" OK (VDict [("ok", VBool true)])]
  /\ reply_payload sample_server "A" OK (VDict [("ok", VBool true)]) !! "s"
     = Some (StatusCode_value OK)
  /\ reply_payload sample_server "A" OK (VDict [("ok", VBool true)]) !! "n"
     = Some (VStr (node sample_server))
  /\ reply_payload sample_server "A" OK (VDict [("ok", VBool true)]) !! "a"
     = Some (VStr "A")
  /\ reply_payload sample_server "A" OK (VDict [("ok", VBool true)]) !! "d"
     = Some (VDict [("ok", VBool true)]).
Proof.
  split; [split; [reflexivity|discriminate]|].
  destruct (success_reply sample_server (mkRequest 7 ∅ (Some "A")) h_ok
              (VDict [("ok", VBool true)]) eq_refl eq_refl)
    as (_ & _ & Hsent & Hpayload); [discriminate|].
  split; [exact Hsent|]. apply (Hpayload "A").
Defined.

(** C1 as stated fails: the request has the address ["A"], its handler
    returns [None], dispatch returns normally and no response is sent. *)
Lemma address_present_none_result_no_response :
  _address (mkRequest 8 ∅ (Some "A")) = Some "A"
  /\ result_of (_handle_request (mkRequest 8 ∅ (Some "A")) sample_server)
     = Normal tt
  /\ sent (trace_of
             (_handle_request (mkRequest 8 ∅ (Some "A")) sample_server))
     = [].
Proof. repeat split. Qed.

(** C1 (as amended) at three requests: no address; an address and a
    handler that returns a value; an address and a handler that returns
    [None]. *)
Lemma dispatch_response_count_witness :
  sent (trace_of (_handle_request (mkRequest 7 ∅ None) sample_server)) = []
  /\ (length (sent (trace_of (_handle_request (mkRequest 7 ∅ (Some "A"))
                                sample_server))) <= 1)%nat
  /\ (sent (trace_of
              (_handle_request (mkRequest 8 ∅ (Some "A")) sample_server))
      = []).
Proof.
  split; [|split].
  - apply (dispatch_response_count sample_server (mkRequest 7 ∅ None)).
    reflexivity.
  - apply (dispatch_response_count sample_server (mkRequest 7 ∅ (Some "A"))
             ) with (a := "A"). reflexivity.
  - destruct (dispatch_response_count sample_server
                (mkRequest 8 ∅ (Some "A"))) as [_ Hsome].
    destruct (Hsome "A" eq_refl) as (_ & Hnone & _).
    apply Hnone. left. exists h_silent. split; reflexivity.
Defined.

(** C2 as stated fails: [KeyboardInterrupt], raised while the handler at
    index [10] is awaited, is not an [Exception]; [ValueError], raised by
    the call of the handler at index [11], is not a [TypeError].  Either
    one leaves [_handle_request] and reaches its caller. *)
Lemma uncaught_failure_escapes_dispatch :
  result_of (_handle_request (mkRequest 10 ∅ (Some "A")) sample_server)
  = Raised (mkExc KeyboardInterrupt [])
  /\ result_of (_handle_request (mkRequest 11 ∅ (Some "A")) sample_server)
     = Raised (mkExc ValueError [VStr "eager"]).
Proof. split; reflexivity. Qed.

(** C2 (as amended) at the handler that raises [RuntimeError] while
    awaited. *)
Lemma caught_failures_are_contained_witness :
  isinstance (mkExc RuntimeError [VStr "boom"]) Exception = true
  /\ result_of (_handle_request (mkRequest 9 ∅ (Some "A")) sample_server)
     = Normal tt
  /\ server_of (_handle_request (mkRequest 9 ∅ (Some "A")) sample_server)
     = sample_server
  /\ sent (trace_of
             (_handle_request (mkRequest 9 ∅ (Some "A")) sample_server))
     = [reply_payload sample_server "A" INTERNAL_ERROR (VStr "boom")]
  /\ reply_payload sample_server "A" INTERNAL_ERROR (VStr "boom") !! "s"
     = Some (StatusCode_value INTERNAL_ERROR)
  /\ reply_payload sample_server "A" INTERNAL_ERROR (VStr "boom") !! "d"
     = Some (VStr "boom").
Proof.
  split; [reflexivity|].
  destruct (caught_failures_are_contained sample_server
              (mkRequest 9 ∅ (Some "A")) eq_refl)
    as (Hres & Hself & Hsent & Hpayload & _).
  split; [exact Hres|]. split; [exact Hself|]. split; [exact Hsent|].
  destruct (Hpayload "A" INTERNAL_ERROR (VStr "boom")) as (Hs & _ & _ & Hd).
  split; [exact Hs|exact Hd].
Defined.

End examples.

(** * More on the registry *)

(** X2: [remove_command] on a registered index returns the handler stored
    there and writes nothing; afterwards the index is not registered, and
    the node and every other index are as before. *)
Theorem remove_command_registered
    (self : Server) (index : Z) (fn : Handler) :
  _commands self !! index = Some fn ->
  remove_command index self
  = (Normal fn, mkServer (_node self) (delete index (_commands self)), [])
  /\ _commands (server_of (remove_command index self)) !! index = None
  /\ node (server_of (remove_command index self)) = node self
  /\ forall other : Z,
      other <> index ->
      _commands (server_of (remove_command index self)) !! other
      = _commands self !! other.
Proof.
  intros Hlookup.
  assert (Hrun : remove_command index self
                 = (Normal fn,
                    mkServer (_node self) (delete index (_commands self)), [])).
  { unfold remove_command, bind, get_self, set_commands, ret; simpl.
    rewrite Hlookup. reflexivity. }
  rewrite Hrun. unfold server_of; simpl.
  split; [reflexivity|]. split; [apply lookup_delete_eq|].
  split; [reflexivity|]. intros other Hne. by apply lookup_delete_ne.
Qed.

(** X3: on a registered index, [remove_command(index)] followed by
    [register_command(index, fn)] with the handler just removed succeeds,
    returns the index and leaves the server object as it was before the two
    calls. *)
Theorem remove_then_register (self : Server) (index : Z) (fn : Handler) :
  _commands self !! index = Some fn ->
  (removed <- remove_command index;; register_command index removed) self
  = (Normal index, self, []).
Proof.
  intros Hlookup.
  unfold register_command, remove_command, bind, get_self, set_commands,
    raise, ret; simpl.
  rewrite Hlookup; simpl.
  rewrite decide_False
    by (rewrite lookup_delete_eq; intros [? ?]; discriminate).
  simpl. rewrite insert_delete_id by exact Hlookup.
  destruct self; reflexivity.
Qed.

(** X4: [register_command], whether it stores the handler or raises, never
    changes the node and never changes what any other index maps to. *)
Theorem register_command_frame (self : Server) (index : Z) (fn : Handler) :
  node (server_of (register_command index fn self)) = node self
  /\ forall other : Z,
      other <> index ->
      _commands (server_of (register_command index fn self)) !! other
      = _commands self !! other.
Proof.
  split.
  - unfold register_command, bind, get_self, set_commands, raise, ret,
      server_of.
    destruct (decide (is_Some (_commands self !! index))); reflexivity.
  - intros other Hne. apply register_command_other. congruence.
Qed.

(** X5: registering two handlers under one fresh index, one call after the
    other: the first call stores its handler, the second raises
    [ValueError], and the index keeps the first handler. *)
Theorem register_twice (self : Server) (index : Z) (first second : Handler) :
  _commands self !! index = None ->
  (register_command index first;; register_command index second) self
  = (Raised
       (mkExc ValueError
          [VStr "Command with index %d already registered"; VInt index]),
     mkServer (_node self) (<[index := first]> (_commands self)), [])
  /\ _commands
       (server_of
          ((register_command index first;; register_command index second)
             self))
     !! index = Some first.
Proof.
  intros Hfresh.
  assert (Hrun : (register_command index first;;
                  register_command index second) self
                 = (Raised
                      (mkExc ValueError
                         [VStr "Command with index %d already registered";
                          VInt index]),
                    mkServer (_node self)
                      (<[index := first]> (_commands self)), [])).
  { unfold register_command, bind, get_self, set_commands, raise, ret; simpl.
    rewrite decide_False by (rewrite Hfresh; intros [? ?]; discriminate).
    simpl.
    rewrite decide_True by (rewrite lookup_insert_eq; eauto).
    reflexivity. }
  rewrite Hrun. split; [reflexivity|].
  unfold server_of; simpl. apply lookup_insert_eq.
Qed.

(** X6: the decorator [command(index)], applied to [func], registers [func]
    as [register_command] does and returns [None]: on a fresh index it
    stores [func] there; on an index that is taken it raises the
    [ValueError] of [register_command] and leaves the server object as it
    was. *)
Theorem command_registers (self : Server) (index : Z) (func : Handler) :
  match _commands self !! index with
  | Some first =>
      command index func self
      = (Raised
           (mkExc ValueError
              [VStr "Command with index %d already registered"; VInt index]),
         self, [])
  | None =>
      command index func self
      = (Normal tt,
         mkServer (_node self) (<[index := func]> (_commands self)), [])
      /\ _commands (server_of (command index func self)) !! index = Some func
  end.
Proof.
  unfold command, register_command, bind, get_self, set_commands, raise, ret.
  destruct (_commands self !! index) as [first|] eqn:Hlookup; simpl.
  - reflexivity.
  - split; [reflexivity|]. unfold server_of; simpl. apply lookup_insert_eq.
Qed.

(** * More on replying *)

Section reply_wire.
Context `{Builtins}.

(** The dictionary of a reply depends on the server only through its node. *)
Lemma reply_payload_node (self other : Server) a status data :
  node self = node other ->
  reply_payload self a status data = reply_payload other a status data.
Proof. unfold reply_payload. intros ->. reflexivity. Qed.

(** X13: a mapping sent by [Server.reply] has the keys ["s"], ["n"] and
    ["a"], the key ["d"] as well when the data is not the [NoValue] object,
    and no other key. *)
Theorem reply_payload_keys
    (self : Server) (address : option string) (status : StatusCode)
    (data : PyVal) (payload : gmap string PyVal) :
  payload ∈ sent (trace_of (reply address status data self)) ->
  dom payload
  = if is_NoValue data then ({["s"; "n"; "a"]} : gset string)
    else {["s"; "n"; "a"; "d"]}.
Proof.
  rewrite reply_sent. destruct address as [a|]; [|by intros ?%elem_of_nil].
  intros ->%list_elem_of_singleton. unfold reply_payload.
  destruct (is_NoValue data);
    rewrite ?dom_insert_L, dom_empty_L; set_solver.
Qed.

(** X14: what [Server.reply] sends determines what it was called with: two
    calls that send the same mapping have the same address, node, status
    code value and data; in particular "no data" ([NoValue]) is told apart
    from every value, [None] included. *)
Theorem reply_payload_determines
    (self1 self2 : Server) (a1 a2 : string) (status1 status2 : StatusCode)
    (data1 data2 : PyVal) :
  sent (trace_of (reply (Some a1) status1 data1 self1))
  = sent (trace_of (reply (Some a2) status2 data2 self2)) ->
  a1 = a2
  /\ node self1 = node self2
  /\ StatusCode_value status1 = StatusCode_value status2
  /\ data1 = data2.
Proof.
  rewrite !reply_sent. intros [= Hpayload].
  pose proof (f_equal (fun m : gmap string PyVal => m !! "a") Hpayload) as Ha.
  pose proof (f_equal (fun m : gmap string PyVal => m !! "n") Hpayload) as Hn.
  pose proof (f_equal (fun m : gmap string PyVal => m !! "s") Hpayload) as Hs.
  pose proof (f_equal (fun m : gmap string PyVal => m !! "d") Hpayload) as Hd.
  simpl in Ha, Hn, Hs, Hd.
  rewrite !reply_payload_a in Ha. rewrite !reply_payload_n in Hn.
  rewrite !reply_payload_s in Hs. rewrite !reply_payload_d in Hd.
  repeat split; [congruence..|].
  destruct (is_NoValue data1) eqn:H1, (is_NoValue data2) eqn:H2;
    try discriminate.
  - apply is_NoValue_true in H1, H2. congruence.
  - congruence.
Qed.

End reply_wire.

(** * More on dispatch *)

Section dispatch_and_registry.
Context `{Builtins}.


(** X7: a server that has just been constructed has the node it was given
    (or the generated one when none was given) and no command: removing any
    index raises, registering any index succeeds, and every request is
    answered as an unknown command, without any handler being called. *)
Theorem new_server_has_no_commands
    (uuid4_hex : string) (given : option string) :
  node (__init__ uuid4_hex given) = default uuid4_hex given
  /\ (forall index : Z,
        result_of (remove_command index (__init__ uuid4_hex given))
        = Raised
            (mkExc ValueError
               [VStr "Command with index %d is not registered"; VInt index]))
  /\ (forall (index : Z) (fn : Handler),
        result_of (register_command index fn (__init__ uuid4_hex given))
        = Normal index)
  /\ forall request : Request,
      _handle_request request (__init__ uuid4_hex given)
      = (Normal tt, __init__ uuid4_hex given,
         received request
         ++ [EvLog WARNING "unknown command %d"
               [VInt (command_index request)]]
         ++ trace_of
              (reply (_address request) UNKNOWN_COMMAND VNoValue
                 (__init__ uuid4_hex given))).
Proof.
  split; [by destruct given|]. split; [done|]. split; [done|].
  intros request. rewrite _handle_request_run. reflexivity.
Qed.

(** X8: registering a handler under a fresh index and then dispatching a
    request for that index calls that handler, right after the record that
    the command was received, and awaits its result whenever the call
    returns one.  When the handler completes with a result other than
    [None] and the request has an address, the operations are exactly the
    record, the call, the await and one send, of a response with status
    [OK], the server's node, the request's address and the result as its
    data. *)
Theorem register_then_dispatch
    (self : Server) (request : Request) (fn : Handler) :
  _commands self !! command_index request = None ->
  (exists rest : list Event,
      trace_of
        ((register_command (command_index request) fn;;
          _handle_request request) self)
      = called request ++ rest)
  /\ (forall command : Awaitable,
        fn request = Returns command ->
        exists rest : list Event,
          trace_of
            ((register_command (command_index request) fn;;
              _handle_request request) self)
          = was_awaited request ++ rest
          /\ awaited rest = [])
  /\ forall (v : PyVal) (a : string),
      fn request = Returns (Completes v) ->
      v <> VNone ->
      _address request = Some a ->
      result_of
        ((register_command (command_index request) fn;;
          _handle_request request) self)
      = Normal tt
      /\ awaited
           (trace_of
              ((register_command (command_index request) fn;;
                _handle_request request) self))
         = [command_index request]
      /\ exists payload : gmap string PyVal,
          trace_of
            ((register_command (command_index request) fn;;
              _handle_request request) self)
          = was_awaited request ++ [EvSend payload]
          /\ sent
               (trace_of
                  ((register_command (command_index request) fn;;
                    _handle_request request) self))
             = [payload]
          /\ payload !! "s" = Some (StatusCode_value OK)
          /\ payload !! "n" = Some (VStr (node self))
          /\ payload !! "a" = Some (VStr a)
          /\ payload !! "d" = if is_NoValue v then None else Some v.
Proof.
  intros Hfresh.
  set (registered :=
         mkServer (_node self)
           (<[command_index request := fn]> (_commands self))).
  assert (Hreg : register_command (command_index request) fn self
                 = (Normal (command_index request), registered, [])).
  { unfold register_command, bind, get_self, set_commands, raise, ret; simpl.
    rewrite decide_False by (rewrite Hfresh; intros [? ?]; discriminate).
    reflexivity. }
  assert (Hlookup : _commands registered !! command_index request = Some fn)
    by apply lookup_insert_eq.
  assert (Hrun : trace_of
                   ((register_command (command_index request) fn;;
                     _handle_request request) self)
                 = trace_of (_handle_request request registered)
                 /\ result_of
                      ((register_command (command_index request) fn;;
                        _handle_request request) self)
                    = result_of (_handle_request request registered)).
  { unfold bind. rewrite Hreg.
    destruct (_handle_request request registered) as [[r s] t].
    split; reflexivity. }
  destruct Hrun as [-> ->].
  rewrite _handle_request_run, Hlookup.
  split; [|split].
  - destruct (fn request) as [[v|e]|e]; unfold was_awaited.
    + destruct (is_None v); unfold trace_of at 1; cbn [snd];
        rewrite <- ?app_assoc; eexists; reflexivity.
    + destruct (isinstance e Exception); unfold trace_of at 1; cbn [snd];
        rewrite <- ?app_assoc; eexists; reflexivity.
    + destruct (isinstance e TypeError); unfold trace_of at 1; cbn [snd].
      * eexists; reflexivity.
      * exists []. by rewrite app_nil_r.
  - intros command ->. destruct command as [v|e].
    + destruct (is_None v); unfold trace_of at 1; cbn [snd].
      * exists []. by rewrite app_nil_r.
      * eexists; split; [reflexivity|].
        rewrite reply_run. by destruct (_address request).
    + destruct (isinstance e Exception); unfold trace_of at 1; cbn [snd].
      * eexists; split; [reflexivity|].
        rewrite reply_run. by destruct (_address request).
      * exists []. by rewrite app_nil_r.
  - intros v a -> Hv Haddr.
    assert (Hnone : is_None v = false) by (destruct v; simpl; congruence).
    rewrite Hnone, reply_run, Haddr.
    unfold result_of, trace_of; simpl.
    split; [reflexivity|]. split; [reflexivity|].
    exists (reply_payload registered a OK v).
    rewrite reply_payload_s, reply_payload_n, reply_payload_a,
      reply_payload_d.
    repeat split.
Qed.

(** X9: after [remove_command(index)] on a registered index, a request for
    that index is answered as an unknown command: the removed handler is
    neither called nor awaited, and the response (sent when the request has
    an address) has status [UNKNOWN_COMMAND] and no data field. *)
Theorem remove_then_dispatch
    (self : Server) (request : Request) (fn : Handler) :
  _commands self !! command_index request = Some fn ->
  result_of
    ((remove_command (command_index request);; _handle_request request) self)
  = Normal tt
  /\ trace_of
       ((remove_command (command_index request);; _handle_request request)
          self)
     = received request
       ++ [EvLog WARNING "unknown command %d" [VInt (command_index request)]]
       ++ trace_of (reply (_address request) UNKNOWN_COMMAND VNoValue self)
  /\ sent
       (trace_of
          ((remove_command (command_index request);; _handle_request request)
             self))
     = match _address request with
       | Some a => [reply_payload self a UNKNOWN_COMMAND VNoValue]
       | None => []
       end.
Proof.
  intros Hlookup.
  set (removed :=
         mkServer (_node self)
           (delete (command_index request) (_commands self))).
  assert (Hrem : remove_command (command_index request) self
                 = (Normal fn, removed, [])).
  { unfold remove_command, bind, get_self, set_commands, ret; simpl.
    rewrite Hlookup. reflexivity. }
  unfold bind at 1 2 3. rewrite Hrem.
  rewrite _handle_request_run.
  assert (Hgone : _commands removed !! command_index request = None)
    by apply lookup_delete_eq.
  rewrite Hgone, !reply_run.
  unfold result_of, trace_of; simpl.
  split; [reflexivity|].
  destruct (_address request) as [a|]; simpl; [|by split].
  rewrite (reply_payload_node removed self) by reflexivity. by split.
Qed.

(** X12: the order of the operations of one dispatch.  It starts with the
    record that the command was received; the result of a handler is
    awaited at most once, and only right after the handler was called; and
    a response, when one is sent, is the last operation: nothing is called,
    awaited, logged or sent after it. *)
Theorem dispatch_trace_order (self : Server) (request : Request) :
  (exists rest : list Event,
      trace_of (_handle_request request self) = received request ++ rest)
  /\ (awaited (trace_of (_handle_request request self)) = []
      \/ exists rest : list Event,
          trace_of (_handle_request request self)
          = called request ++ EvAwait (command_index request) :: rest
          /\ awaited rest = [])
  /\ forall (before after : list Event) (payload : gmap string PyVal),
      trace_of (_handle_request request self)
      = before ++ EvSend payload :: after ->
      after = [].
Proof.
  rewrite _handle_request_run.
  destruct (_commands self !! command_index request) as [fn|];
    [destruct (fn request) as [[v|e]|e];
     [destruct (is_None v)|destruct (isinstance e Exception)
     |destruct (isinstance e TypeError)]|];
    rewrite ?reply_run; unfold trace_of, was_awaited, called, received;
    destruct (_address request) as [a|]; simpl;
    (split; [eexists; reflexivity|]);
    (split; [first [left; reflexivity
                   |right; eexists; split; reflexivity]|]);
    intros before after payload Heq;
    destruct before as [|? [|? [|? [|? [|? [|? ?]]]]]];
    simplify_eq/=; reflexivity.
Qed.

End dispatch_and_registry.

(** * The further properties at concrete servers and requests *)

Section more_examples.
#[local] Existing Instance sample_builtins.

(** X1 at the sample server, where index [99] is free. *)
Lemma remove_command_unknown_witness :
  _commands sample_server !! 99 = None
  /\ remove_command 99 sample_server
     = (Raised
          (mkExc ValueError
             [VStr "Command with index %d is not registered"; VInt 99]),
        sample_server, []).
Proof. split; [reflexivity|]. apply remove_command_unknown. reflexivity. Defined.

(** X2 at the sample server, where index [7] holds [h_ok]. *)
Lemma remove_command_registered_witness :
  _commands sample_server !! 7 = Some h_ok
  /\ result_of (remove_command 7 sample_server) = Normal h_ok
  /\ _commands (server_of (remove_command 7 sample_server)) !! 7 = None
  /\ _commands (server_of (remove_command 7 sample_server)) !! 8
     = Some h_silent.
Proof.
  split; [reflexivity|].
  destruct (remove_command_registered sample_server 7 h_ok eq_refl)
    as (Hrun & Hgone & _ & Hothers).
  split; [rewrite Hrun; reflexivity|]. split; [exact Hgone|].
  rewrite (Hothers 8) by discriminate. reflexivity.
Defined.

(** X3 at the sample server and index [7]. *)
Lemma remove_then_register_witness :
  _commands sample_server !! 7 = Some h_ok
  /\ (removed <- remove_command 7;; register_command 7 removed) sample_server
     = (Normal 7, sample_server, []).
Proof.
  split; [reflexivity|]. apply (remove_then_register sample_server 7 h_ok).
  reflexivity.
Defined.

(** X4 at the sample server: registering at [99] leaves [7] alone, and so
    does the failing registration at [8]. *)
Lemma register_command_frame_witness :
  _commands (server_of (register_command 99 h_boom sample_server)) !! 7
  = Some h_ok
  /\ _commands (server_of (register_command 8 h_boom sample_server)) !! 7
     = Some h_ok
  /\ node (server_of (register_command 99 h_boom sample_server)) = "node-1".
Proof.
  destruct (register_command_frame sample_server 99 h_boom) as [Hnode Hfree].
  destruct (register_command_frame sample_server 8 h_boom) as [_ Htaken].
  split; [|split].
  - rewrite (Hfree 7) by discriminate. reflexivity.
  - rewrite (Htaken 7) by discriminate. reflexivity.
  - rewrite Hnode. reflexivity.
Defined.

(** X5 at the sample server and the free index [99]. *)
Lemma register_twice_witness :
  _commands sample_server !! 99 = None
  /\ result_of
       ((register_command 99 h_ok;; register_command 99 h_boom) sample_server)
     = Raised
         (mkExc ValueError
            [VStr "Command with index %d already registered"; VInt 99])
  /\ _commands
       (server_of
          ((register_command 99 h_ok;; register_command 99 h_boom)
             sample_server))
     !! 99 = Some h_ok.
Proof.
  split; [reflexivity|].
  destruct (register_twice sample_server 99 h_ok h_boom eq_refl)
    as [Hrun Hkept].
  split; [rewrite Hrun; reflexivity|exact Hkept].
Defined.

(** X8: [h_ok] registered at the free index [99], then a request for [99]
    with the address ["A"]. *)
Lemma register_then_dispatch_witness :
  (_commands sample_server !! 99 = None
   /\ h_ok (mkRequest 99 ∅ (Some "A"))
      = Returns (Completes (VDict [("ok", VBool true)])))
  /\ exists payload : gmap string PyVal,
      sent
        (trace_of
           ((register_command 99 h_ok;;
             _handle_request (mkRequest 99 ∅ (Some "A"))) sample_server))
      = [payload]
      /\ payload !! "s" = Some (VInt 0)
      /\ payload !! "n" = Some (VStr "node-1")
      /\ payload !! "a" = Some (VStr "A")
      /\ payload !! "d" = Some (VDict [("ok", VBool true)]).
Proof.
  split; [split; reflexivity|].
  destruct (register_then_dispatch sample_server (mkRequest 99 ∅ (Some "A"))
              h_ok eq_refl)
    as (_ & _ & Hdone).
  destruct (Hdone (VDict [("ok", VBool true)]) "A" eq_refl)
    as (_ & _ & payload & _ & Hsent & Hs & Hn & Ha & Hd);
    [discriminate|reflexivity|].
  exists payload. repeat split; assumption.
Defined.

(** X9: [h_ok] removed from index [7], then a request for [7] with the
    address ["A"]. *)
Lemma remove_then_dispatch_witness :
  _commands sample_server !! 7 = Some h_ok
  /\ sent
       (trace_of
          ((remove_command 7;; _handle_request (mkRequest 7 ∅ (Some "A")))
             sample_server))
     = [reply_payload sample_server "A" UNKNOWN_COMMAND VNoValue].
Proof.
  split; [reflexivity|].
  destruct (remove_then_dispatch sample_server (mkRequest 7 ∅ (Some "A"))
              h_ok eq_refl)
    as (_ & _ & Hsent).
  exact Hsent.
Defined.


(** X11 at the handler that raises [KeyboardInterrupt] while awaited. *)
Lemma uncaught_failure_propagates_witness :
  (_commands sample_server !! 10 = Some h_stop
   /\ isinstance (mkExc KeyboardInterrupt []) Exception = false)
  /\ result_of (_handle_request (mkRequest 10 ∅ (Some "A")) sample_server)
     = Raised (mkExc KeyboardInterrupt [])
  /\ sent (trace_of
             (_handle_request (mkRequest 10 ∅ (Some "A")) sample_server))
     = [].
Proof.
  split; [split; reflexivity|].
  destruct (uncaught_failure_propagates sample_server
              (mkRequest 10 ∅ (Some "A")) h_stop (mkExc KeyboardInterrupt [])
              eq_refl (or_intror (conj eq_refl eq_refl)))
    as (Hres & _ & Hsent).
  split; [exact Hres|exact Hsent].
Defined.

(** X12 at a request whose handler fails while awaited: the await comes
    right after the call, and nothing is awaited after it. *)
Lemma dispatch_trace_order_witness :
  exists rest : list Event,
    trace_of (_handle_request (mkRequest 9 ∅ (Some "A")) sample_server)
    = called (mkRequest 9 ∅ (Some "A")) ++ EvAwait 9 :: rest
    /\ awaited rest = [].
Proof.
  destruct (dispatch_trace_order sample_server (mkRequest 9 ∅ (Some "A")))
    as (_ & [Hnone|Hawait] & _); [discriminate Hnone|exact Hawait].
Defined.

(** X13: a reply with data has four keys, a reply without has three. *)
Lemma reply_payload_keys_witness :
  dom (reply_payload sample_server "A" OK (VInt 5))
  = ({["s"; "n"; "a"; "d"]} : gset string)
  /\ dom (reply_payload sample_server "A" OK VNoValue)
     = ({["s"; "n"; "a"]} : gset string).
Proof.
  split.
  - apply (reply_payload_keys sample_server (Some "A") OK (VInt 5)).
    rewrite reply_sent. apply list_elem_of_here.
  - apply (reply_payload_keys sample_server (Some "A") OK VNoValue).
    rewrite reply_sent. apply list_elem_of_here.
Defined.

(** X14: a reply with the data [None] and a reply with no data are told
    apart; two replies that send the same mapping were given the same
    data. *)
Lemma reply_payload_determines_witness :
  sent (trace_of (reply (Some "A") OK VNone sample_server))
  = sent (trace_of (reply (Some "A") OK VNone sample_server))
  /\ sent (trace_of (reply (Some "A") OK VNone sample_server))
     <> sent (trace_of (reply (Some "A") OK VNoValue sample_server)).
Proof.
  split; [reflexivity|]. intros Hsame.
  destruct (reply_payload_determines sample_server sample_server "A" "A"
              OK OK VNone VNoValue Hsame) as (_ & _ & _ & Hdata).
  discriminate Hdata.
Defined.

End more_examples.
